(** * yellowbrick.features.base

    A shallow embedding of [yellowbrick/features/base.py]: the feature
    visualizer base classes, their feature-name resolution, the
    target-type determination and the colour assignment of
    [DataVisualizer.fit].

    Conventions of the embedding.
    - The instance ([self]) is a record; a method is a computation in a small
      monad that threads the instance, collects the warnings issued through
      [warnings.warn] and may stop with an exception.  The instance is kept
      when an exception is raised, as a Python object keeps the attributes
      assigned before the [raise].
    - The label vector [y] is an optional list of integers ([None] or an
      array of integer labels); [np.unique], [min] and [max] are the
      corresponding list functions.
    - The matplotlib types (colours, colormaps, axes) are the fields of the
      class [Backend]; the collaborators that live outside this module
      ([resolve_colors], [mpl.cm.get_cmap], the [draw] hook of the concrete
      visualizer) are the methods of the class [Collaborators]. *)

From Stdlib Require Import ZArith String Ascii Bool Lia Arith.
From Stdlib Require Import DecimalString DecimalZ.
From Stdlib Require Import List Sorting.Sorted Sorting.Permutation.
Import ListNotations.

Local Open Scope string_scope.
Local Open Scope Z_scope.

(* ================================================================== *)
(** ** numpy and builtin helpers *)
(* ================================================================== *)

(** A label vector: a one-dimensional array of integer labels. *)
Definition Target := list Z.

(** [ar.sort()]: ascending sort (insertion into an already sorted prefix). *)
Fixpoint sorted_insert (x : Z) (l : list Z) : list Z :=
  match l with
  | [] => [x]
  | h :: t => if x <=? h then x :: l else h :: sorted_insert x t
  end.

Definition np_sort (ar : list Z) : list Z :=
  fold_right sorted_insert [] ar.

(** The mask [ar[1:] != ar[:-1]] of [np.unique]: keep an element of the
    sorted array when it differs from its predecessor. *)
Fixpoint drop_adjacent (l : list Z) : list Z :=
  match l with
  | [] => []
  | h :: t =>
      match t with
      | [] => [h]
      | h' :: _ => if h =? h' then drop_adjacent t else h :: drop_adjacent t
      end
  end.

(** [np.unique(y)]: the sorted unique elements of the array. *)
Definition np_unique (y : Target) : list Z :=
  drop_adjacent (np_sort y).

(** [str(label)] for an integer label: its decimal representation. *)
Definition str (label : Z) : string :=
  NilEmpty.string_of_int (Z.to_int label).

(** [y.min()] and [y.max()] of a one-dimensional array; numpy raises
    [ValueError] on a zero-size array, here [None]. *)
Definition array_min (y : list Z) : option Z :=
  match y with
  | [] => None
  | h :: t => Some (fold_left Z.min t h)
  end.

Definition array_max (y : list Z) : option Z :=
  match y with
  | [] => None
  | h :: t => Some (fold_left Z.max t h)
  end.

(** [np.asarray(y)]: the labels are already a uniform integer array. *)
Definition np_asarray (y : Target) : list Z := y.

(** *** Python dictionaries

    A [dict] keeps its keys in insertion order; assigning to a key that is
    already present replaces the value and keeps the key's position. *)

Definition PyDict (V : Type) := list (string * V).

Fixpoint dict_setitem {V} (d : PyDict V) (k : string) (v : V) : PyDict V :=
  match d with
  | [] => [(k, v)]
  | (k', v') :: rest =>
      if String.eqb k k' then (k', v) :: rest
      else (k', v') :: dict_setitem rest k v
  end.

(** [dict(pairs)]: the pairs are inserted from left to right. *)
Definition dict_of_pairs {V} (pairs : list (string * V)) : PyDict V :=
  fold_left (fun d kv => dict_setitem d (fst kv) (snd kv)) pairs [].

Fixpoint dict_get {V} (d : PyDict V) (k : string) : option V :=
  match d with
  | [] => None
  | (k', v) :: rest => if String.eqb k k' then Some v else dict_get rest k
  end.

Definition dict_keys {V} (d : PyDict V) : list string := map fst d.

Definition dict_len {V} (d : PyDict V) : nat := List.length d.

(** [zip(a, b)] stops at the shorter of its arguments. *)
Definition zip {A B} (a : list A) (b : list B) : list (A * B) := combine a b.

(** *** Vocabulary of the specification *)

(** The number of distinct values of a label vector. *)
Definition distinct_count (y : Target) : nat :=
  List.length (nodup Z.eq_dec y).

(** The distinct values of a label vector in the order in which they are
    first met. *)
Fixpoint first_occurrences (seen : list Z) (y : list Z) : list Z :=
  match y with
  | [] => []
  | h :: t =>
      if existsb (Z.eqb h) seen then first_occurrences seen t
      else h :: first_occurrences (h :: seen) t
  end.

Definition distinct_by_encounter (y : Target) : list Z :=
  first_occurrences [] y.

(* ================================================================== *)
(** ** Data model *)
(* ================================================================== *)

(** [class TargetType(Enum)] *)
Inductive TargetType := AUTO | SINGLE | DISCRETE | CONTINUOUS.

(** The value of an enumeration member. *)
Definition TargetType_value (t : TargetType) : string :=
  match t with
  | AUTO => "auto"
  | SINGLE => "single"
  | DISCRETE => "discrete"
  | CONTINUOUS => "continuous"
  end.

(** [TargetType(value)]: the member with that value; [None] stands for the
    [ValueError] of the enumeration's lookup. *)
Definition TargetType_of_value (v : string) : option TargetType :=
  if String.eqb v "auto" then Some AUTO
  else if String.eqb v "single" then Some SINGLE
  else if String.eqb v "discrete" then Some DISCRETE
  else if String.eqb v "continuous" then Some CONTINUOUS
  else None.

(** [str(member)], as substituted by [format]. *)
Definition TargetType_str (t : TargetType) : string :=
  match t with
  | AUTO => "TargetType.AUTO"
  | SINGLE => "TargetType.SINGLE"
  | DISCRETE => "TargetType.DISCRETE"
  | CONTINUOUS => "TargetType.CONTINUOUS"
  end.

Definition TargetType_eqb (a b : TargetType) : bool :=
  match a, b with
  | AUTO, AUTO | SINGLE, SINGLE | DISCRETE, DISCRETE
  | CONTINUOUS, CONTINUOUS => true
  | _, _ => false
  end.

(** A feature label: a column name, or a column position. *)
Inductive FeatureLabel :=
| FeatureName (name : string)
| FeatureIndex (i : Z).

(** The instance matrix [X] of [fit]: "ndarray or DataFrame of shape n x m".
    Only what [fit] reads of it is kept: whether it is a data frame, its
    column labels, its shape. *)
Inductive Data :=
| DataFrame (columns : list FeatureLabel) (nrows : nat)
| NdArray (nrows ncols : nat).

(** Modelled from the spec: [yellowbrick.utils.is_dataframe], the predicate
    [is_dataframe(obj) -> bool] of the data-frame detection utility. *)
Definition is_dataframe (X : Data) : bool :=
  match X with
  | DataFrame _ _ => true
  | NdArray _ _ => false
  end.

(** [X.shape] *)
Definition shape (X : Data) : nat * nat :=
  match X with
  | DataFrame columns nrows => (nrows, List.length columns)
  | NdArray nrows ncols => (nrows, ncols)
  end.

(** [np.array(X.columns)] *)
Definition columns_of (X : Data) : list FeatureLabel :=
  match X with
  | DataFrame columns _ => columns
  | NdArray _ _ => []
  end.

(** [np.arange(0, n)] *)
Definition np_arange (n : nat) : list FeatureLabel :=
  map (fun i => FeatureIndex (Z.of_nat i)) (seq 0 n).

Inductive exn :=
| YellowbrickValueError (msg : string)
| ValueError (msg : string)
| TypeError (msg : string).

Inductive WarningCategory := YellowbrickWarning.

Inductive Warning := Warn (message : string) (category : WarningCategory).

(** The matplotlib side: the types the visualizer only passes around. *)
Class Backend := {
  Color : Type;      (* a colour of a colour list *)
  Colormap : Type;   (* the [colormap] argument: a name or a cmap *)
  Cmap : Type;       (* what [mpl.cm.get_cmap] returns *)
  Axes : Type;       (* the axes the figure is drawn on *)
  Kwargs : Type      (* the keyword arguments passed through to [draw] *)
}.

Section Instances.
Context `{Backend}.

(** [self._colors]: ['b'], a dictionary from class to colour, or a cmap. *)
Inductive Colors :=
| ColorName (c : string)
| ColorDict (d : PyDict Color)
| ColorMap (m : Cmap).

(** The attributes of a [MultiFeatureVisualizer]. *)
Record MultiFeatureVisualizer := {
  ax : Axes;
  features_ : option (list FeatureLabel)
}.

(** The attributes of a [DataVisualizer]; the three last ones do not exist
    before the first [fit] ([None]). *)
Record DataVisualizer := {
  super : MultiFeatureVisualizer;
  classes_ : option (list string);
  color : option (list Color);
  colormap : option Colormap;
  target_type : TargetType;
  _target_color_type : option TargetType;
  _colors : option Colors;
  range_ : option (Z * Z)
}.

Definition set_features_ (self : MultiFeatureVisualizer) v :=
  {| ax := ax self; features_ := v |}.

Definition set_ax (self : MultiFeatureVisualizer) v :=
  {| ax := v; features_ := features_ self |}.

Definition set_super (self : DataVisualizer) v :=
  {| super := v; classes_ := classes_ self; color := color self;
     colormap := colormap self; target_type := target_type self;
     _target_color_type := _target_color_type self;
     _colors := _colors self; range_ := range_ self |}.

Definition set_classes_ (self : DataVisualizer) v :=
  {| super := super self; classes_ := v; color := color self;
     colormap := colormap self; target_type := target_type self;
     _target_color_type := _target_color_type self;
     _colors := _colors self; range_ := range_ self |}.

Definition set_target_color_type (self : DataVisualizer) v :=
  {| super := super self; classes_ := classes_ self; color := color self;
     colormap := colormap self; target_type := target_type self;
     _target_color_type := v;
     _colors := _colors self; range_ := range_ self |}.

Definition set_colors (self : DataVisualizer) v :=
  {| super := super self; classes_ := classes_ self; color := color self;
     colormap := colormap self; target_type := target_type self;
     _target_color_type := _target_color_type self;
     _colors := v; range_ := range_ self |}.

Definition set_range_ (self : DataVisualizer) v :=
  {| super := super self; classes_ := classes_ self; color := color self;
     colormap := colormap self; target_type := target_type self;
     _target_color_type := _target_color_type self;
     _colors := _colors self; range_ := v |}.

End Instances.

(** The collaborators of the module.  Each one is taken with the contract
    the callers rely on: it returns.  [draw] reads the instance and the data
    and its effect is on the axes only. *)
Class Collaborators `{Backend} := {
  (* [yellowbrick.style.resolve_colors(n_colors, colormap, colors)] *)
  resolve_colors : nat -> option Colormap -> option (list Color) -> list Color;
  (* [mpl.cm.get_cmap(colormap)] *)
  get_cmap : option Colormap -> Cmap;
  (* [self.draw(X, y, **kwargs)] of the concrete visualizer: what is on the
     axes once the instances are drawn *)
  draw : DataVisualizer -> Data -> option Target -> Kwargs -> Axes
}.

(** *** A concrete setting

    Colours and colormaps are written as matplotlib writes them, the axes
    are the list of what has been drawn on them. *)

Definition text_backend : Backend := {|
  Color := string;
  Colormap := string;
  Cmap := option string;
  Axes := list string;
  Kwargs := unit
|}.

(** The colour cycle of the default palette. *)
Definition color_cycle : list string :=
  ["#0272a2"; "#9fc377"; "#ca0b03"; "#a50258"; "#d7c703"; "#88cada"].

(** A colour resolution that follows the contract of [resolve_colors]: the
    explicit colours when there are some, otherwise [n_colors] colours of
    the cycle. *)
Definition cycle_colors (n_colors : nat) (colormap : option string)
    (colors : option (list string)) : list string :=
  match colors with
  | Some cs => cs
  | None =>
      map (fun i => nth (i mod 6) color_cycle "b") (seq 0 n_colors)
  end.

Definition text_collaborators : @Collaborators text_backend :=
  @Build_Collaborators text_backend
    cycle_colors
    (fun colormap => colormap)
    (fun self X y kwargs => app (A := string) (ax (super self)) ["instances"]).

(** A visualizer of the concrete setting as its constructor leaves it:
    empty axes, no features, no colour preference. *)
Definition text_visualizer (t : TargetType) (classes : option (list string))
  : @DataVisualizer text_backend :=
  {| super := {| ax := ([] : list string) : @Axes text_backend;
                 features_ := None |};
     classes_ := classes;
     color := None;
     colormap := None;
     target_type := t;
     _target_color_type := None;
     _colors := None;
     range_ := None |}.

(* ================================================================== *)
(** ** Methods *)
(* ================================================================== *)

Declare Scope method_scope.
Delimit Scope method_scope with method.

Section Methods.
Context `{Collaborators}.

(** What a method call leaves behind: the instance, the warnings it issued
    and either the exception raised or the value returned. *)
Record Outcome (A : Type) := {
  instance : DataVisualizer;
  warned : list Warning;
  result : exn + A
}.
Arguments instance {A}.
Arguments warned {A}.
Arguments result {A}.

Definition Method (A : Type) := DataVisualizer -> Outcome A.

Definition ret {A} (a : A) : Method A :=
  fun self => {| instance := self; warned := []; result := inr a |}.

Definition bind {A B} (m : Method A) (k : A -> Method B) : Method B :=
  fun self =>
    match m self with
    | {| instance := self'; warned := w; result := inl e |} =>
        {| instance := self'; warned := w; result := inl e |}
    | {| instance := self'; warned := w; result := inr a |} =>
        match k a self' with
        | {| instance := self''; warned := w'; result := r |} =>
            {| instance := self''; warned := w ++ w'; result := r |}
        end
    end.

Definition raise {A} (e : exn) : Method A :=
  fun self => {| instance := self; warned := []; result := inl e |}.

(** [warnings.warn(message, category)] *)
Definition warnings_warn (message : string) (category : WarningCategory)
  : Method unit :=
  fun self =>
    {| instance := self; warned := [Warn message category]; result := inr tt |}.

Definition get_self : Method DataVisualizer :=
  fun self => {| instance := self; warned := []; result := inr self |}.

Definition assign (f : DataVisualizer -> DataVisualizer) : Method unit :=
  fun self => {| instance := f self; warned := []; result := inr tt |}.

Notation "x <- m ;; k" := (bind m (fun x => k))
  (at level 61, m at next level, right associativity) : method_scope.
Notation "m ;; k" := (bind m (fun _ => k))
  (at level 61, right associativity) : method_scope.

Local Open Scope method_scope.

(** *** MultiFeatureVisualizer *)

(** [MultiFeatureVisualizer.fit(self, X, y=None, **fit_params)]; neither [y]
    nor the parameters are read.  The result is [self] after the call. *)
Definition MultiFeatureVisualizer_fit (self : MultiFeatureVisualizer)
    (X : Data) : MultiFeatureVisualizer :=
  match features_ self with
  | None =>
      if is_dataframe X then set_features_ self (Some (columns_of X))
      else
        let '(_, ncols) := shape X in
        set_features_ self (Some (np_arange ncols))
  | Some _ => self
  end.

(** *** DataVisualizer *)

(** [DataVisualizer.__init__]; the constructor of the base class stores the
    axes and the features. *)
Definition DataVisualizer_init (ax : Axes)
    (features : option (list FeatureLabel)) (classes : option (list string))
    (color : option (list Color)) (colormap : option Colormap)
    (target_type : string) : exn + DataVisualizer :=
  match TargetType_of_value target_type with
  | Some t =>
      inr {| super := {| ax := ax; features_ := features |};
             classes_ := classes;
             color := color;
             colormap := colormap;
             target_type := t;
             _target_color_type := None;
             _colors := None;
             range_ := None |}
  | None =>
      inl (YellowbrickValueError
             ("unknown target color type '" ++ target_type ++ "'"))
  end.

(** [DataVisualizer._determine_target_color_type(self, y)] *)
Definition _determine_target_color_type (y : option Target) : Method unit :=
  self <- get_self ;;
  match y with
  | None => assign (fun s => set_target_color_type s (Some SINGLE))
  | Some yv =>
      if TargetType_eqb (target_type self) AUTO then
        if (List.length (np_unique yv) <? 10)%nat then
          assign (fun s => set_target_color_type s (Some DISCRETE))
        else
          assign (fun s => set_target_color_type s (Some CONTINUOUS))
      else
        assign (fun s => set_target_color_type s (Some (target_type self)))
  end ;;
  self <- get_self ;;
  match _target_color_type self with
  | Some AUTO =>
      raise (YellowbrickValueError
               ("could not determine target color type from target='"
                ++ TargetType_str (target_type self) ++ "' to '"
                ++ TargetType_str AUTO ++ "'"))
  | _ => ret tt
  end.

(** The array behind [y] in the branches of [fit] that read it.  They are
    entered only when the resolved type is not [SINGLE], hence only with a
    label vector; the exception stands for the case that cannot happen. *)
Definition target_array (y : option Target) : Method Target :=
  match y with
  | Some yv => ret yv
  | None => raise (TypeError "y is None")
  end.

(** [(y.min(), y.max())] *)
Definition min_max (y : list Z) : Method (Z * Z) :=
  match array_min y, array_max y with
  | Some lo, Some hi => ret (lo, hi)
  | _, _ =>
      raise (ValueError
        "zero-size array to reduction operation minimum which has no identity")
  end.

(** [DataVisualizer.fit(self, X, y=None, **kwargs)]; the value returned is
    [self]. *)
Definition DataVisualizer_fit (X : Data) (y : option Target)
    (kwargs : Kwargs) : Method DataVisualizer :=
  assign (fun s => set_super s (MultiFeatureVisualizer_fit (super s) X)) ;;
  _determine_target_color_type y ;;
  self <- get_self ;;
  y <- match _target_color_type self with
       | Some SINGLE =>
           assign (fun s => set_colors s (Some (ColorName "b"))) ;;
           ret y
       | Some DISCRETE =>
           yv <- target_array y ;;
           classes <- match classes_ self with
                      | None =>
                          let labels := map str (np_unique yv) in
                          assign (fun s => set_classes_ s (Some labels)) ;;
                          ret labels
                      | Some classes => ret classes
                      end ;;
           (if negb (List.length classes =? List.length (np_unique yv))%nat then
              warnings_warn "Number of unique target is not equal to classes"
                            YellowbrickWarning
            else ret tt) ;;
           let color_values :=
             resolve_colors (List.length classes) (colormap self) (color self) in
           assign (fun s =>
             set_colors s (Some (ColorDict (dict_of_pairs (zip classes color_values))))) ;;
           ret y
       | Some CONTINUOUS =>
           yv <- target_array y ;;
           let yv := np_asarray yv in
           range <- min_max yv ;;
           assign (fun s => set_range_ s (Some range)) ;;
           assign (fun s => set_colors s (Some (ColorMap (get_cmap (colormap self))))) ;;
           ret (Some yv)
       | other =>
           raise (YellowbrickValueError
                    ("unknown target color type '"
                     ++ match other with
                        | Some t => TargetType_str t
                        | None => "None"
                        end ++ "'"))
       end ;;
  assign (fun s => set_super s (set_ax (super s) (draw s X y kwargs))) ;;
  self <- get_self ;;
  ret self.

(** *** FeatureVisualizer *)

(** [FeatureVisualizer.transform(self, X)] *)
Definition transform (X : Data) : Method Data := ret X.

(** Modelled from the spec: [fit_transform] of the transformer mixin that
    [FeatureVisualizer] inherits, which "invokes fit(X, y, options), then
    transform(X)". *)
Definition fit_transform (X : Data) (y : option Target) (kwargs : Kwargs)
  : Method Data :=
  DataVisualizer_fit X y kwargs ;;
  transform X.

(** [FeatureVisualizer.fit_transform_poof(self, X, y=None, **kwargs)], for
    an instance whose [fit] is the one of [DataVisualizer].  [poof] is the
    render-finalization call of the base visualizer; it works on the axes. *)
Definition fit_transform_poof (poof : DataVisualizer -> Kwargs -> Axes)
    (X : Data) (y : option Target) (kwargs : Kwargs) : Method Data :=
  Xp <- fit_transform X y kwargs ;;
  assign (fun s => set_super s (set_ax (super s) (poof s kwargs))) ;;
  ret Xp.

(* ================================================================== *)
(** ** Facts about the helpers *)
(* ================================================================== *)

Example str_ex : map str [0; 7; 12; -5] = ["0"; "7"; "12"; "-5"].
Proof. reflexivity. Qed.

Example np_unique_ex : np_unique [3; 1; 2; 3; 1] = [1; 2; 3].
Proof. reflexivity. Qed.

Lemma str_inj : forall a b, str a = str b -> a = b.
Proof.
  intros a b E. unfold str in E.
  assert (I : Z.to_int a = Z.to_int b).
  { pose proof (NilEmpty.isi (Z.to_int a)) as Ha.
    pose proof (NilEmpty.isi (Z.to_int b)) as Hb.
    rewrite E in Ha. congruence. }
  rewrite <- (DecimalZ.of_to a), <- (DecimalZ.of_to b). now rewrite I.
Qed.

Lemma sorted_insert_In : forall x a l,
  In x (sorted_insert a l) <-> x = a \/ In x l.
Proof.
  intros x a l. induction l as [|h t IH]; simpl.
  - intuition.
  - destruct (a <=? h); simpl; rewrite ?IH; intuition.
Qed.

Lemma sorted_insert_sorted : forall a l,
  StronglySorted Z.le l -> StronglySorted Z.le (sorted_insert a l).
Proof.
  intros a l S. induction S as [|h t S IH F]; simpl.
  - constructor; constructor.
  - destruct (a <=? h) eqn:E.
    + apply Z.leb_le in E. constructor.
      * now constructor.
      * constructor; [assumption|].
        eapply Forall_impl; [|exact F]. intros; simpl in *; lia.
    + apply Z.leb_gt in E. constructor; [assumption|].
      apply Forall_forall. intros x Hx.
      apply sorted_insert_In in Hx. destruct Hx as [->|Hx]; [lia|].
      rewrite Forall_forall in F. now apply F.
Qed.

Lemma np_sort_In : forall x l, In x (np_sort l) <-> In x l.
Proof.
  intros x l. induction l as [|h t IH]; simpl; [tauto|].
  rewrite sorted_insert_In, IH. intuition.
Qed.

Lemma np_sort_sorted : forall l, StronglySorted Z.le (np_sort l).
Proof.
  induction l as [|h t IH]; simpl; [constructor|].
  now apply sorted_insert_sorted.
Qed.

Lemma drop_adjacent_In : forall x l, In x (drop_adjacent l) <-> In x l.
Proof.
  intros x l. induction l as [|h t IH]; [simpl; tauto|].
  destruct t as [|h' t']; [simpl; tauto|].
  change (drop_adjacent (h :: h' :: t'))
    with (if h =? h' then drop_adjacent (h' :: t')
          else h :: drop_adjacent (h' :: t')).
  destruct (h =? h') eqn:E.
  - apply Z.eqb_eq in E. subst h'. rewrite IH. simpl. tauto.
  - simpl In at 1. rewrite IH. simpl. tauto.
Qed.

Lemma drop_adjacent_sorted : forall l,
  StronglySorted Z.le l -> StronglySorted Z.lt (drop_adjacent l).
Proof.
  induction l as [|h t IH]; intros S; [constructor|].
  destruct t as [|h' t']; [constructor; constructor|].
  change (drop_adjacent (h :: h' :: t'))
    with (if h =? h' then drop_adjacent (h' :: t')
          else h :: drop_adjacent (h' :: t')).
  inversion S as [|? ? S' F]; subst.
  destruct (h =? h') eqn:E; [now apply IH|].
  apply Z.eqb_neq in E.
  constructor; [now apply IH|].
  apply Forall_forall. intros x Hx. rewrite drop_adjacent_In in Hx.
  inversion F as [|? ? Hh Ft]; subst.
  inversion S' as [|? ? _ F']; subst.
  simpl in Hx. destruct Hx as [<-|Hx]; [lia|].
  rewrite Forall_forall in F'. specialize (F' x Hx). lia.
Qed.

Lemma lt_sorted_NoDup : forall l, StronglySorted Z.lt l -> NoDup l.
Proof.
  intros l S. induction S as [|h t S IH F]; constructor; [|assumption].
  intros Hin. rewrite Forall_forall in F. specialize (F h Hin). lia.
Qed.

(** [np.unique] returns each value of the array once, ascending. *)
Lemma np_unique_In : forall x y, In x (np_unique y) <-> In x y.
Proof.
  intros. unfold np_unique. now rewrite drop_adjacent_In, np_sort_In.
Qed.

Lemma np_unique_sorted : forall y, StronglySorted Z.lt (np_unique y).
Proof.
  intros. apply drop_adjacent_sorted, np_sort_sorted.
Qed.

Lemma np_unique_NoDup : forall y, NoDup (np_unique y).
Proof.
  intros. apply lt_sorted_NoDup, np_unique_sorted.
Qed.

Lemma np_unique_length : forall y,
  List.length (np_unique y) = distinct_count y.
Proof.
  intros y. unfold distinct_count.
  apply Permutation_length, NoDup_Permutation.
  - apply np_unique_NoDup.
  - apply NoDup_nodup.
  - intros x. now rewrite np_unique_In, nodup_In.
Qed.

(** *** Dictionaries *)

Lemma dict_setitem_fresh : forall {V} (d : PyDict V) k v,
  ~ In k (dict_keys d) -> dict_setitem d k v = (d ++ [(k, v)])%list.
Proof.
  intros V d k v. induction d as [|[k' v'] rest IH]; simpl; intros N.
  - reflexivity.
  - destruct (String.eqb k k') eqn:E.
    + apply String.eqb_eq in E. subst. tauto.
    + rewrite IH; [reflexivity|tauto].
Qed.

Lemma dict_setitem_keys : forall {V} (d : PyDict V) k v x,
  In x (dict_keys (dict_setitem d k v)) <-> x = k \/ In x (dict_keys d).
Proof.
  intros V d k v x. induction d as [|[k' v'] rest IH]; simpl.
  - intuition.
  - destruct (String.eqb k k') eqn:E; simpl.
    + apply String.eqb_eq in E. subst. intuition.
    + unfold dict_keys in IH. rewrite IH. intuition.
Qed.

Lemma fold_setitem_keys : forall {V} (pairs : list (string * V)) d x,
  In x (dict_keys
          (fold_left (fun d kv => dict_setitem d (fst kv) (snd kv)) pairs d))
  <-> In x (dict_keys d) \/ In x (map fst pairs).
Proof.
  intros V pairs. induction pairs as [|[k v] t IH]; intros d x; simpl.
  - tauto.
  - rewrite IH, dict_setitem_keys. intuition.
Qed.

(** The keys of [dict(pairs)] are the first components of the pairs. *)
Lemma dict_of_pairs_keys : forall {V} (pairs : list (string * V)) x,
  In x (dict_keys (dict_of_pairs pairs)) <-> In x (map fst pairs).
Proof.
  intros. unfold dict_of_pairs. rewrite fold_setitem_keys. simpl. tauto.
Qed.

Lemma fold_setitem_fresh : forall {V} (pairs : list (string * V)) d,
  NoDup (dict_keys d ++ map fst pairs) ->
  fold_left (fun d kv => dict_setitem d (fst kv) (snd kv)) pairs d
  = (d ++ pairs)%list.
Proof.
  intros V pairs. induction pairs as [|[k v] t IH]; intros d N; simpl.
  - now rewrite app_nil_r.
  - simpl in N. rewrite dict_setitem_fresh.
    + rewrite IH.
      * now rewrite <- app_assoc.
      * unfold dict_keys in *. rewrite map_app. simpl.
        rewrite <- app_assoc. exact N.
    + apply NoDup_remove_2 in N. intros I. apply N.
      apply in_or_app. now left.
Qed.

(** Without a repeated key, [dict(pairs)] holds the pairs as they come. *)
Lemma dict_of_pairs_NoDup : forall {V} (pairs : list (string * V)),
  NoDup (map fst pairs) -> dict_of_pairs pairs = pairs.
Proof.
  intros V pairs N. unfold dict_of_pairs.
  now rewrite fold_setitem_fresh.
Qed.

Lemma zip_keys : forall {A B} (a : list A) (b : list B),
  List.length a = List.length b -> map fst (zip a b) = a.
Proof.
  intros A B a. unfold zip.
  induction a as [|x a IH]; intros [|y b] E; simpl in *; try discriminate.
  - reflexivity.
  - f_equal. apply IH. lia.
Qed.

Lemma dict_get_zip : forall {V} (ks : list string) (vs : list V) i k,
  NoDup ks -> List.length ks = List.length vs ->
  nth_error ks i = Some k ->
  dict_get (zip ks vs) k = nth_error vs i.
Proof.
  intros V ks. unfold zip.
  induction ks as [|k0 ks IH]; intros [|v vs] i k N E Hi; simpl in *;
    try discriminate.
  - destruct i; discriminate.
  - inversion N as [|? ? Hk N']; subst.
    destruct i as [|i]; simpl in *.
    + injection Hi as ->. now rewrite String.eqb_refl.
    + destruct (String.eqb k k0) eqn:Ek.
      * apply String.eqb_eq in Ek. subst.
        exfalso. apply Hk. eapply nth_error_In; eauto.
      * apply IH; auto.
Qed.

(* ================================================================== *)
(** ** Target type determination *)
(* ================================================================== *)

Ltac run_method :=
  unfold _determine_target_color_type, bind, get_self, assign, ret, raise,
    warnings_warn; simpl.

(** C1. With the requested type AUTO and a label vector [y], the
    determination succeeds and resolves to DISCRETE when [y] has fewer than
    10 distinct values, to CONTINUOUS when it has 10 or more. *)
Theorem determine_auto_by_distinct_count :
  forall (self : DataVisualizer) (y : Target),
    target_type self = AUTO ->
    let o := _determine_target_color_type (Some y) self in
    result o = inr tt /\
    ((distinct_count y < 10)%nat ->
       _target_color_type (instance o) = Some DISCRETE) /\
    ((10 <= distinct_count y)%nat ->
       _target_color_type (instance o) = Some CONTINUOUS).
Proof.
  intros self y Hauto. run_method. rewrite Hauto. simpl.
  rewrite np_unique_length.
  destruct (Nat.ltb_spec (distinct_count y) 10) as [Hlt|Hge]; simpl.
  - split; [reflexivity|]. split; intros; [reflexivity|lia].
  - split; [reflexivity|]. split; intros; [lia|reflexivity].
Qed.

(** C2. Without a label vector ([y] is [None]) the determination succeeds
    and resolves to SINGLE, whatever the requested type of the instance. *)
Theorem determine_absent_is_single :
  forall (self : DataVisualizer),
    let o := _determine_target_color_type None self in
    result o = inr tt /\
    _target_color_type (instance o) = Some SINGLE.
Proof.
  intros self. run_method. split; reflexivity.
Qed.

(** C3. With a label vector and a requested type SINGLE, DISCRETE or
    CONTINUOUS the determination succeeds and resolves to the requested
    type; the outcome is the same for every label vector. *)
Theorem determine_explicit_is_requested :
  forall (self : DataVisualizer) (y : Target),
    In (target_type self) [SINGLE; DISCRETE; CONTINUOUS] ->
    let o := _determine_target_color_type (Some y) self in
    result o = inr tt /\
    _target_color_type (instance o) = Some (target_type self) /\
    (forall y' : Target, _determine_target_color_type (Some y') self = o).
Proof.
  intros self y Hin. run_method.
  destruct (target_type self) eqn:E; simpl in Hin;
    try (repeat split; reflexivity).
  exfalso. intuition discriminate.
Qed.

(* ================================================================== *)
(** ** Construction *)
(* ================================================================== *)

Lemma TargetType_of_value_None : forall s,
  ~ In s ["auto"; "single"; "discrete"; "continuous"] ->
  TargetType_of_value s = None.
Proof.
  intros s N. unfold TargetType_of_value.
  repeat match goal with
  | |- context [String.eqb s ?c] =>
      destruct (String.eqb_spec s c) as [->|_]; [exfalso; apply N; simpl; tauto|]
  end.
  reflexivity.
Qed.

(** C7. The constructor raises [YellowbrickValueError] for a [target_type]
    string that is not one of auto, single, discrete, continuous, and
    returns an instance for each of these four. *)
Theorem init_validates_target_type :
  forall ax features classes color colormap (value : string),
    (In value ["auto"; "single"; "discrete"; "continuous"] ->
       exists self,
         DataVisualizer_init ax features classes color colormap value
         = inr self /\
         TargetType_value (target_type self) = value) /\
    (~ In value ["auto"; "single"; "discrete"; "continuous"] ->
       DataVisualizer_init ax features classes color colormap value
       = inl (YellowbrickValueError
                ("unknown target color type '" ++ value ++ "'"))).
Proof.
  intros ax0 features classes color0 colormap0 value. split.
  - intros Hin. simpl in Hin.
    destruct Hin as [<-|[<-|[<-|[<-|[]]]]];
      eexists; split; reflexivity.
  - intros N. unfold DataVisualizer_init.
    now rewrite (TargetType_of_value_None _ N).
Qed.

(* ================================================================== *)
(** ** Feature names *)
(* ================================================================== *)

Lemma np_arange_nth : forall n i,
  (i < n)%nat -> nth_error (np_arange n) i = Some (FeatureIndex (Z.of_nat i)).
Proof.
  intros n i Hi. unfold np_arange.
  rewrite nth_error_map, nth_error_seq.
  apply Nat.ltb_lt in Hi. now rewrite Hi.
Qed.

Lemma np_arange_length : forall n, List.length (np_arange n) = n.
Proof.
  intros n. unfold np_arange. now rewrite length_map, length_seq.
Qed.

Lemma MultiFeatureVisualizer_fit_resolved :
  forall (self : MultiFeatureVisualizer) X,
    features_ (MultiFeatureVisualizer_fit self X) <> None.
Proof.
  intros self X. unfold MultiFeatureVisualizer_fit.
  destruct (features_ self) eqn:E; [congruence|].
  destruct (is_dataframe X); [simpl; discriminate|].
  destruct (shape X). simpl. discriminate.
Qed.

(** C9. [MultiFeatureVisualizer.fit] leaves features that are already set
    untouched; otherwise the features become the column names of a data
    frame, in their order, or the positions 0 .. ncols-1 of an array.  Once
    resolved they survive a further [fit], whatever its input. *)
Theorem fit_resolves_features_once :
  forall (self : MultiFeatureVisualizer) (X : Data),
    (forall names, features_ self = Some names ->
       MultiFeatureVisualizer_fit self X = self) /\
    (forall columns nrows,
       features_ self = None -> X = DataFrame columns nrows ->
       features_ (MultiFeatureVisualizer_fit self X) = Some columns) /\
    (forall nrows ncols,
       features_ self = None -> X = NdArray nrows ncols ->
       exists positions,
         features_ (MultiFeatureVisualizer_fit self X) = Some positions /\
         List.length positions = ncols /\
         forall i, (i < ncols)%nat ->
           nth_error positions i = Some (FeatureIndex (Z.of_nat i))) /\
    (forall X' : Data,
       MultiFeatureVisualizer_fit (MultiFeatureVisualizer_fit self X) X'
       = MultiFeatureVisualizer_fit self X).
Proof.
  intros self X. repeat split.
  - intros names E. unfold MultiFeatureVisualizer_fit. now rewrite E.
  - intros columns nrows E ->. unfold MultiFeatureVisualizer_fit.
    now rewrite E.
  - intros nrows ncols E ->. unfold MultiFeatureVisualizer_fit.
    rewrite E. simpl. eexists. split; [reflexivity|].
    split; [apply np_arange_length|apply np_arange_nth].
  - intros X'.
    pose proof (MultiFeatureVisualizer_fit_resolved self X) as R.
    unfold MultiFeatureVisualizer_fit at 1.
    destruct (features_ (MultiFeatureVisualizer_fit self X));
      [reflexivity|congruence].
Qed.

(* ================================================================== *)
(** ** Colour assignment *)
(* ================================================================== *)

(** The class list [fit] works with: the one of the instance, or the one
    derived from the labels. *)
Lemma fit_discrete_outcome :
  forall (self : DataVisualizer) X (y : Target) kwargs,
    target_type self = DISCRETE \/
    (target_type self = AUTO /\ (List.length (np_unique y) <? 10)%nat = true) ->
    let o := DataVisualizer_fit X (Some y) kwargs self in
    let classes := match classes_ self with
                   | Some c => c
                   | None => map str (np_unique y)
                   end in
    result o = inr (instance o) /\
    warned o =
      (if (List.length classes =? List.length (np_unique y))%nat then []
       else [Warn "Number of unique target is not equal to classes"
                  YellowbrickWarning]) /\
    classes_ (instance o) = Some classes /\
    _colors (instance o) =
      Some (ColorDict (dict_of_pairs (zip classes
              (resolve_colors (List.length classes)
                              (colormap self) (color self))))) /\
    _target_color_type (instance o) = Some DISCRETE.
Proof.
  intros self X y kwargs Hd.
  unfold DataVisualizer_fit, target_array. run_method.
  assert (E : TargetType_eqb (target_type self) AUTO = false /\
              target_type self = DISCRETE
              \/ TargetType_eqb (target_type self) AUTO = true /\
                 (List.length (np_unique y) <? 10)%nat = true).
  { destruct Hd as [->|[-> ->]]; [left|right]; split; reflexivity. }
  destruct E as [[-> ->]|[-> ->]]; simpl;
    destruct (classes_ self) as [cs|] eqn:Ec; simpl;
    match goal with
    | |- context [(?a =? ?b)%nat] => destruct (a =? b)%nat
    end; simpl; rewrite ?Ec; repeat split; reflexivity.
Qed.

(** The type [fit] resolves to, from the requested type and the labels. *)
Lemma fit_resolved_type :
  forall (self : DataVisualizer) X (y : Target) kwargs,
    _target_color_type (instance (DataVisualizer_fit X (Some y) kwargs self))
    = if TargetType_eqb (target_type self) AUTO
      then if (List.length (np_unique y) <? 10)%nat
           then Some DISCRETE else Some CONTINUOUS
      else Some (target_type self).
Proof.
  intros self X y kwargs.
  unfold DataVisualizer_fit, target_array, min_max. run_method.
  destruct (target_type self) eqn:Et; simpl;
    try destruct (List.length (np_unique y) <? 10)%nat; simpl;
    try (destruct (classes_ self) as [cs|] eqn:Ec; simpl;
         match goal with
         | |- context [(?a =? ?b)%nat] => destruct (a =? b)%nat
         end; simpl; reflexivity);
    try (destruct y as [|h t]; simpl; reflexivity);
    reflexivity.
Qed.

Lemma fit_resolves_discrete_inv :
  forall (self : DataVisualizer) X (y : Target) kwargs,
    _target_color_type (instance (DataVisualizer_fit X (Some y) kwargs self))
    = Some DISCRETE ->
    target_type self = DISCRETE \/
    (target_type self = AUTO /\ (List.length (np_unique y) <? 10)%nat = true).
Proof.
  intros self X y kwargs R. rewrite fit_resolved_type in R.
  destruct (target_type self); simpl in R; try discriminate; auto.
  destruct (List.length (np_unique y) <? 10)%nat; [auto|discriminate].
Qed.

Lemma fit_resolves_continuous_inv :
  forall (self : DataVisualizer) X (y : Target) kwargs,
    _target_color_type (instance (DataVisualizer_fit X (Some y) kwargs self))
    = Some CONTINUOUS ->
    target_type self = CONTINUOUS \/
    (target_type self = AUTO /\ (List.length (np_unique y) <? 10)%nat = false).
Proof.
  intros self X y kwargs R. rewrite fit_resolved_type in R.
  destruct (target_type self); simpl in R; try discriminate; auto.
  destruct (List.length (np_unique y) <? 10)%nat; [discriminate|auto].
Qed.

(** [fit] without a label vector resolves to SINGLE, so that the branches
    reading the labels are never entered with [None]. *)
Lemma fit_absent_target :
  forall (self : DataVisualizer) X kwargs,
    let o := DataVisualizer_fit X None kwargs self in
    result o = inr (instance o) /\
    _target_color_type (instance o) = Some SINGLE /\
    _colors (instance o) = Some (ColorName "b").
Proof.
  intros self X kwargs. unfold DataVisualizer_fit. run_method.
  repeat split; reflexivity.
Qed.

(** C4. In the DISCRETE case, when the instance has a class list whose
    length differs from the number of distinct labels, [fit] issues the
    warning, raises nothing, keeps the class list as it is, builds the
    colours from it and returns the instance. *)
Theorem fit_class_count_mismatch_warns :
  forall (self : DataVisualizer) X (y : Target) kwargs classes,
    classes_ self = Some classes ->
    List.length classes <> distinct_count y ->
    let o := DataVisualizer_fit X (Some y) kwargs self in
    _target_color_type (instance o) = Some DISCRETE ->
    warned o = [Warn "Number of unique target is not equal to classes"
                     YellowbrickWarning] /\
    result o = inr (instance o) /\
    classes_ (instance o) = Some classes /\
    _colors (instance o) =
      Some (ColorDict (dict_of_pairs (zip classes
              (resolve_colors (List.length classes)
                              (colormap self) (color self))))).
Proof.
  intros self X y kwargs classes Hc Hn o R.
  apply fit_resolves_discrete_inv in R.
  destruct (fit_discrete_outcome self X y kwargs R) as (Hr & Hw & Hcl & Hco & _).
  rewrite Hc in Hw, Hcl, Hco. rewrite np_unique_length in Hw.
  apply Nat.eqb_neq in Hn. rewrite Hn in Hw.
  repeat split; assumption.
Qed.

(** C10. In the DISCRETE case, when the instance has no class list on
    entry, [fit] issues no warning: the derived class list has as many
    elements as the labels have distinct values. *)
Theorem fit_derived_classes_never_warn :
  forall (self : DataVisualizer) X (y : Target) kwargs,
    classes_ self = None ->
    let o := DataVisualizer_fit X (Some y) kwargs self in
    _target_color_type (instance o) = Some DISCRETE ->
    warned o = [] /\
    result o = inr (instance o) /\
    exists classes,
      classes_ (instance o) = Some classes /\
      List.length classes = distinct_count y.
Proof.
  intros self X y kwargs Hc o R.
  apply fit_resolves_discrete_inv in R.
  destruct (fit_discrete_outcome self X y kwargs R) as (Hr & Hw & Hcl & _).
  rewrite Hc in Hw, Hcl. rewrite length_map, Nat.eqb_refl in Hw.
  repeat split; try assumption.
  eexists. split; [exact Hcl|].
  now rewrite length_map, np_unique_length.
Qed.

(** C6, amended. In the DISCRETE case, when the instance has no class list,
    [fit] derives it from the distinct values of [y] taken in ascending
    order of value (not in the order in which they are met), each one
    converted to its decimal text. *)
Theorem fit_derives_sorted_classes :
  forall (self : DataVisualizer) X (y : Target) kwargs,
    classes_ self = None ->
    let o := DataVisualizer_fit X (Some y) kwargs self in
    _target_color_type (instance o) = Some DISCRETE ->
    exists values,
      classes_ (instance o) = Some (map str values) /\
      StronglySorted Z.lt values /\
      (forall v, In v values <-> In v y).
Proof.
  intros self X y kwargs Hc o R.
  apply fit_resolves_discrete_inv in R.
  destruct (fit_discrete_outcome self X y kwargs R) as (_ & _ & Hcl & _).
  rewrite Hc in Hcl.
  exists (np_unique y). split; [exact Hcl|].
  split; [apply np_unique_sorted|intros v; apply np_unique_In].
Qed.

(** C5, amended. In the DISCRETE case, when the class list has no repeated
    label and the colour resolution returns as many colours as there are
    classes, the colour assignment is the dictionary whose items are the
    classes paired with the colours, position by position and in the order
    of the class list: its keys are the class list, its size the number of
    classes, and the class at a position is bound to the colour at that
    position. *)
Theorem fit_discrete_colors_by_position :
  forall (self : DataVisualizer) X (y : Target) kwargs classes color_values,
    let o := DataVisualizer_fit X (Some y) kwargs self in
    _target_color_type (instance o) = Some DISCRETE ->
    classes_ (instance o) = Some classes ->
    color_values =
      resolve_colors (List.length classes) (colormap self) (color self) ->
    List.length color_values = List.length classes ->
    NoDup classes ->
    exists d,
      _colors (instance o) = Some (ColorDict d) /\
      d = zip classes color_values /\
      dict_keys d = classes /\
      dict_len d = List.length classes /\
      (forall i k, nth_error classes i = Some k ->
                   dict_get d k = nth_error color_values i).
Proof.
  intros self X y kwargs classes color_values o R Hcl Hcv Hlen Hnd.
  apply fit_resolves_discrete_inv in R.
  destruct (fit_discrete_outcome self X y kwargs R) as (_ & _ & Hcl' & Hco & _).
  subst o. rewrite Hcl' in Hcl. injection Hcl as Hcl.
  rewrite Hcl, <- Hcv in Hco.
  assert (Hk : map fst (zip classes color_values) = classes)
    by (apply zip_keys; lia).
  rewrite dict_of_pairs_NoDup in Hco by (now rewrite Hk).
  exists (zip classes color_values). repeat split.
  - exact Hco.
  - exact Hk.
  - unfold dict_len, zip. rewrite length_combine. lia.
  - intros i k Hi. apply dict_get_zip; auto.
Qed.

(** Repeated labels or not, the keys of the colour assignment are the
    labels of the class list. *)
Lemma fit_discrete_color_keys :
  forall (self : DataVisualizer) X (y : Target) kwargs classes,
    let o := DataVisualizer_fit X (Some y) kwargs self in
    _target_color_type (instance o) = Some DISCRETE ->
    classes_ (instance o) = Some classes ->
    List.length (resolve_colors (List.length classes)
                                (colormap self) (color self))
    = List.length classes ->
    exists d,
      _colors (instance o) = Some (ColorDict d) /\
      (forall k, In k (dict_keys d) <-> In k classes).
Proof.
  intros self X y kwargs classes o R Hcl Hlen.
  apply fit_resolves_discrete_inv in R.
  destruct (fit_discrete_outcome self X y kwargs R) as (_ & _ & Hcl' & Hco & _).
  subst o. rewrite Hcl' in Hcl. injection Hcl as Hcl.
  rewrite Hcl in Hco.
  eexists. split; [exact Hco|].
  intros k. rewrite dict_of_pairs_keys, zip_keys by lia. tauto.
Qed.

(** *** The continuous case *)

Lemma fold_min_spec : forall t h,
  In (fold_left Z.min t h) (h :: t) /\
  (forall v, In v (h :: t) -> fold_left Z.min t h <= v).
Proof.
  induction t as [|a t IH]; intros h; simpl.
  - split; [now left|]. intros v [<-|[]]. lia.
  - destruct (IH (Z.min h a)) as [Hin Hle]. split.
    + simpl in Hin. destruct Hin as [E|Hin]; [|auto].
      rewrite <- E. destruct (Z.min_spec h a) as [[_ ->]|[_ ->]]; auto.
    + intros v Hv.
      assert (Hm : fold_left Z.min t (Z.min h a) <= Z.min h a)
        by (apply Hle; now left).
      destruct Hv as [<-|[<-|Hv]]; [lia|lia|].
      apply Hle. now right.
Qed.

Lemma fold_max_spec : forall t h,
  In (fold_left Z.max t h) (h :: t) /\
  (forall v, In v (h :: t) -> v <= fold_left Z.max t h).
Proof.
  induction t as [|a t IH]; intros h; simpl.
  - split; [now left|]. intros v [<-|[]]. lia.
  - destruct (IH (Z.max h a)) as [Hin Hle]. split.
    + simpl in Hin. destruct Hin as [E|Hin]; [|auto].
      rewrite <- E. destruct (Z.max_spec h a) as [[_ ->]|[_ ->]]; auto.
    + intros v Hv.
      assert (Hm : Z.max h a <= fold_left Z.max t (Z.max h a))
        by (apply Hle; now left).
      destruct Hv as [<-|[<-|Hv]]; [lia|lia|].
      apply Hle. now right.
Qed.

Lemma fit_continuous_outcome :
  forall (self : DataVisualizer) X (h : Z) (t : list Z) kwargs,
    target_type self = CONTINUOUS \/
    (target_type self = AUTO /\
     (List.length (np_unique (h :: t)) <? 10)%nat = false) ->
    let o := DataVisualizer_fit X (Some (h :: t)) kwargs self in
    result o = inr (instance o) /\
    warned o = [] /\
    range_ (instance o) = Some (fold_left Z.min t h, fold_left Z.max t h) /\
    _colors (instance o) = Some (ColorMap (get_cmap (colormap self))).
Proof.
  intros self X h t kwargs Hc.
  unfold DataVisualizer_fit, target_array, min_max. run_method.
  assert (E : TargetType_eqb (target_type self) AUTO = false /\
              target_type self = CONTINUOUS
              \/ TargetType_eqb (target_type self) AUTO = true /\
                 (List.length (np_unique (h :: t)) <? 10)%nat = false).
  { destruct Hc as [->|[-> ->]]; [left|right]; split; reflexivity. }
  destruct E as [[-> ->]|[-> ->]]; simpl; repeat split; reflexivity.
Qed.

(** With an empty label vector the CONTINUOUS branch stops at [y.min()]:
    numpy's [ValueError] leaves [fit], and no range is stored. *)
Lemma fit_continuous_empty :
  forall (self : DataVisualizer) X kwargs,
    target_type self = CONTINUOUS ->
    let o := DataVisualizer_fit X (Some []) kwargs self in
    (exists msg, result o = inl (ValueError msg)) /\
    range_ (instance o) = range_ self.
Proof.
  intros self X kwargs Hc.
  unfold DataVisualizer_fit, target_array, min_max. run_method.
  rewrite Hc. simpl. split; [eexists|]; reflexivity.
Qed.

(** C8, amended. In the CONTINUOUS case with a label vector that is not
    empty, [fit] returns the instance and the stored range is the pair of
    the minimum and the maximum of [y]. *)
Theorem fit_continuous_range :
  forall (self : DataVisualizer) X (y : Target) kwargs,
    y <> [] ->
    let o := DataVisualizer_fit X (Some y) kwargs self in
    _target_color_type (instance o) = Some CONTINUOUS ->
    result o = inr (instance o) /\
    exists lo hi,
      range_ (instance o) = Some (lo, hi) /\
      In lo (np_asarray y) /\ In hi (np_asarray y) /\
      (forall v, In v (np_asarray y) -> lo <= v <= hi).
Proof.
  intros self X y kwargs Hne o R.
  destruct y as [|h t]; [congruence|].
  apply fit_resolves_continuous_inv in R.
  destruct (fit_continuous_outcome self X h t kwargs R) as (Hr & _ & Hrg & _).
  split; [exact Hr|].
  destruct (fold_min_spec t h) as [Hmin Hle].
  destruct (fold_max_spec t h) as [Hmax Hge].
  exists (fold_left Z.min t h), (fold_left Z.max t h).
  unfold np_asarray. repeat split; auto.
Qed.

(* ================================================================== *)
(** ** The outcome of [fit], case by case *)
(* ================================================================== *)

(** [typed t] is the instance once the features are resolved and the target
    type [t] is assigned, [drawn s] the instance [s] once [draw] has run. *)
Lemma fit_outcome_cases :
  forall (self : DataVisualizer) X (y : option Target) kwargs,
    let o := DataVisualizer_fit X y kwargs self in
    let typed t :=
      set_target_color_type
        (set_super self (MultiFeatureVisualizer_fit (super self) X))
        (Some t) in
    let drawn s := set_super s (set_ax (super s) (draw s X y kwargs)) in
    ((y = None \/ target_type self = SINGLE) /\
     let s := set_colors (typed SINGLE) (Some (ColorName "b")) in
     o = {| instance := drawn s; warned := [];
            result := inr (drawn s) |})
    \/
    (exists yv,
       y = Some yv /\
       (target_type self = DISCRETE \/
        (target_type self = AUTO /\
         (List.length (np_unique yv) <? 10)%nat = true)) /\
       let classes := match classes_ self with
                      | Some c => c
                      | None => map str (np_unique yv)
                      end in
       let s1 := match classes_ self with
                 | Some _ => typed DISCRETE
                 | None => set_classes_ (typed DISCRETE) (Some classes)
                 end in
       let s := set_colors s1
                  (Some (ColorDict (dict_of_pairs (zip classes
                     (resolve_colors (List.length classes)
                                     (colormap self) (color self)))))) in
       o = {| instance := drawn s;
              warned :=
                if (List.length classes =? List.length (np_unique yv))%nat
                then []
                else [Warn "Number of unique target is not equal to classes"
                           YellowbrickWarning];
              result := inr (drawn s) |})
    \/
    (exists h t,
       y = Some (h :: t) /\
       (target_type self = CONTINUOUS \/
        (target_type self = AUTO /\
         (List.length (np_unique (h :: t)) <? 10)%nat = false)) /\
       let s := set_colors
                  (set_range_ (typed CONTINUOUS)
                     (Some (fold_left Z.min t h, fold_left Z.max t h)))
                  (Some (ColorMap (get_cmap (colormap self)))) in
       o = {| instance := drawn s; warned := [];
              result := inr (drawn s) |})
    \/
    (y = Some [] /\ target_type self = CONTINUOUS /\
     exists msg,
       o = {| instance := typed CONTINUOUS; warned := [];
              result := inl (ValueError msg) |}).
Proof.
  intros self X y kwargs.
  unfold DataVisualizer_fit, target_array, min_max. run_method.
  destruct y as [yv|]; [|left; split; [now left|reflexivity]].
  destruct (target_type self) eqn:Et; simpl.
  - destruct (List.length (np_unique yv) <? 10)%nat eqn:El; simpl.
    + right; left. exists yv. split; [reflexivity|]. split; [now right|].
      destruct (classes_ self) as [cs|] eqn:Ec; simpl;
        match goal with
        | |- context [(?a =? ?b)%nat] => destruct (a =? b)%nat
        end; simpl; reflexivity.
    + destruct yv as [|h t]; [discriminate El|].
      right; right; left. exists h, t.
      split; [reflexivity|]. split; [now right|]. reflexivity.
  - left. split; [now right|reflexivity].
  - right; left. exists yv. split; [reflexivity|]. split; [now left|].
    destruct (classes_ self) as [cs|] eqn:Ec; simpl;
      match goal with
      | |- context [(?a =? ?b)%nat] => destruct (a =? b)%nat
      end; simpl; reflexivity.
  - destruct yv as [|h t]; simpl.
    + right; right; right. split; [reflexivity|]. split; [reflexivity|].
      eexists. reflexivity.
    + right; right; left. exists h, t.
      split; [reflexivity|]. split; [now left|]. reflexivity.
Qed.

Ltac fit_by_cases self X y kwargs :=
  let Hin := fresh "Hin" in
  let Ho := fresh "Ho" in
  let Hy := fresh "Hy" in
  destruct (fit_outcome_cases self X y kwargs) as
    [[Hin Ho]
    |[(?yv & Hy & Hin & Ho)
     |[(?h & ?t & Hy & Hin & Ho)
      |(Hy & Hin & ?msg & Ho)]]];
  cbv zeta in Ho; rewrite Ho; clear Ho; simpl.

(* ================================================================== *)
(** ** Further properties of the target type determination *)
(* ================================================================== *)

(** X1. [_determine_target_color_type] never raises and never warns: its
    closing test for AUTO cannot succeed.  It assigns one of SINGLE,
    DISCRETE, CONTINUOUS and changes no other attribute. *)
Theorem determine_never_raises :
  forall (self : DataVisualizer) (y : option Target),
    let o := _determine_target_color_type y self in
    result o = inr tt /\
    warned o = [] /\
    exists t,
      In t [SINGLE; DISCRETE; CONTINUOUS] /\
      instance o = set_target_color_type self (Some t).
Proof.
  intros self y. run_method.
  destruct y as [yv|]; simpl.
  - destruct (target_type self) eqn:Et; simpl;
      try destruct (List.length (np_unique yv) <? 10)%nat; simpl;
      (split; [reflexivity|]; split; [reflexivity|]);
      eexists; (split; [|reflexivity]); simpl; tauto.
  - split; [reflexivity|]. split; [reflexivity|].
    eexists; split; [|reflexivity]. simpl; tauto.
Qed.

Lemma fit_resolved_type_absent :
  forall (self : DataVisualizer) X kwargs,
    _target_color_type (instance (DataVisualizer_fit X None kwargs self))
    = Some SINGLE.
Proof.
  intros self X kwargs. unfold DataVisualizer_fit. run_method. reflexivity.
Qed.

(** X2. The resolved type of a [fit] is computed anew from the requested
    type and the label vector: instances with the same requested type
    resolve alike on the same labels, whatever an earlier [fit] left in
    them and whatever the data and the keyword arguments; the resolved type
    is never AUTO. *)
Theorem fit_resolved_type_not_cached :
  forall (self self' : DataVisualizer) X X' (y : option Target) kwargs kwargs',
    target_type self = target_type self' ->
    _target_color_type (instance (DataVisualizer_fit X y kwargs self))
    = _target_color_type (instance (DataVisualizer_fit X' y kwargs' self')) /\
    exists t,
      _target_color_type (instance (DataVisualizer_fit X y kwargs self))
      = Some t /\ t <> AUTO.
Proof.
  intros self self' X X' y kwargs kwargs' E.
  destruct y as [yv|].
  - rewrite !fit_resolved_type, E. split; [reflexivity|].
    destruct (target_type self') eqn:Et; simpl;
      try destruct (List.length (np_unique yv) <? 10)%nat;
      eexists; (split; [reflexivity|discriminate]).
  - rewrite !fit_resolved_type_absent. split; [reflexivity|].
    eexists; split; [reflexivity|discriminate].
Qed.

(* ================================================================== *)
(** ** Further properties of [fit] *)
(* ================================================================== *)



(** X5. When [fit] returns, the colours it stored have the form of the
    resolved type: the colour b for SINGLE, a dictionary for DISCRETE, the
    colormap of [get_cmap] together with a stored range for CONTINUOUS. *)
Theorem fit_colors_match_resolved_type :
  forall (self : DataVisualizer) X (y : option Target) kwargs,
    let o := DataVisualizer_fit X y kwargs self in
    result o = inr (instance o) ->
    match _target_color_type (instance o) with
    | Some SINGLE => _colors (instance o) = Some (ColorName "b")
    | Some DISCRETE => exists d, _colors (instance o) = Some (ColorDict d)
    | Some CONTINUOUS =>
        _colors (instance o) = Some (ColorMap (get_cmap (colormap self))) /\
        exists lo hi, range_ (instance o) = Some (lo, hi)
    | _ => False
    end.
Proof.
  intros self X y kwargs o. subst o.
  fit_by_cases self X y kwargs; intros R.
  - reflexivity.
  - destruct (classes_ self); simpl; eexists; reflexivity.
  - split; [reflexivity|]. eexists; eexists; reflexivity.
  - discriminate R.
Qed.

(** X6. [fit] never changes the configuration of the instance, not even
    when it raises: the requested type, the colours and the colormap given
    to the constructor stay, and so does a class list that is already set. *)
Theorem fit_keeps_configuration :
  forall (self : DataVisualizer) X (y : option Target) kwargs,
    let o := DataVisualizer_fit X y kwargs self in
    target_type (instance o) = target_type self /\
    color (instance o) = color self /\
    colormap (instance o) = colormap self /\
    (forall classes, classes_ self = Some classes ->
                     classes_ (instance o) = Some classes).
Proof.
  intros self X y kwargs o. subst o.
  fit_by_cases self X y kwargs; repeat split; auto.
  - destruct (classes_ self); reflexivity.
  - destruct (classes_ self); reflexivity.
  - destruct (classes_ self); reflexivity.
  - intros cs Ec. rewrite Ec. simpl. exact Ec.
Qed.

(** X7. After every [fit], also one that raises, the features are
    resolved: they are what [MultiFeatureVisualizer.fit] makes of them, are
    never [None], and are the given ones when some were given. *)
Theorem fit_always_resolves_features :
  forall (self : DataVisualizer) X (y : option Target) kwargs,
    let o := DataVisualizer_fit X y kwargs self in
    features_ (super (instance o))
    = features_ (MultiFeatureVisualizer_fit (super self) X) /\
    features_ (super (instance o)) <> None /\
    (forall names, features_ (super self) = Some names ->
                   features_ (super (instance o)) = Some names).
Proof.
  intros self X y kwargs o.
  assert (E : features_ (super (instance o))
              = features_ (MultiFeatureVisualizer_fit (super self) X)).
  { subst o. fit_by_cases self X y kwargs; try reflexivity.
    destruct (classes_ self); reflexivity. }
  rewrite E. split; [reflexivity|].
  split; [apply MultiFeatureVisualizer_fit_resolved|].
  intros names En. unfold MultiFeatureVisualizer_fit. now rewrite En.
Qed.


(** X9. [draw] runs last and once: when [fit] returns, the axes are what
    [draw] made for an instance that already has its colours, with the data
    and the labels [fit] was given, and the rest of the instance is that
    instance; when [fit] raises, [draw] has not run and the axes are
    untouched. *)
Theorem fit_draws_after_colors :
  forall (self : DataVisualizer) X (y : option Target) kwargs,
    let o := DataVisualizer_fit X y kwargs self in
    (result o = inr (instance o) ->
       exists s,
         instance o = set_super s (set_ax (super s) (draw s X y kwargs)) /\
         ax (super s) = ax (super self) /\
         _colors s <> None) /\
    (forall e, result o = inl e ->
               ax (super (instance o)) = ax (super self)).
Proof.
  intros self X y kwargs o. subst o.
  assert (A : forall s : MultiFeatureVisualizer,
            ax (MultiFeatureVisualizer_fit s X) = ax s).
  { intros s. unfold MultiFeatureVisualizer_fit.
    destruct (features_ s); [reflexivity|].
    destruct (is_dataframe X); [reflexivity|].
    destruct (shape X); reflexivity. }
  fit_by_cases self X y kwargs; split; try discriminate;
    try (intros e _; apply A);
    intros _;
    match goal with
    | |- context [draw ?s _ _ _] => exists s
    end;
    (split; [reflexivity|]);
    destruct (classes_ self); simpl; (split; [apply A|discriminate]).
Qed.

(* ================================================================== *)
(** ** Classes and colours across calls *)
(* ================================================================== *)

Lemma sorted_lt_ext : forall l1 l2,
  StronglySorted Z.lt l1 -> StronglySorted Z.lt l2 ->
  (forall v, In v l1 <-> In v l2) -> l1 = l2.
Proof.
  induction l1 as [|h1 t1 IH]; intros l2 S1 S2 E.
  - destruct l2 as [|h2 t2]; [reflexivity|].
    exfalso. apply (proj2 (E h2)). now left.
  - destruct l2 as [|h2 t2].
    + exfalso. apply (proj1 (E h1)). now left.
    + inversion S1 as [|? ? S1' F1]; subst.
      inversion S2 as [|? ? S2' F2]; subst.
      rewrite Forall_forall in F1, F2.
      assert (Eh : h1 = h2).
      { destruct (proj1 (E h1) (or_introl eq_refl)) as [Ea|Ha]; [auto|].
        destruct (proj2 (E h2) (or_introl eq_refl)) as [Eb|Hb]; [auto|].
        specialize (F1 _ Hb). specialize (F2 _ Ha). lia. }
      subst h2. f_equal. apply IH; auto.
      intros v. split; intros Hv.
      * destruct (proj1 (E v) (or_intror Hv)) as [Ea|Ha]; [|exact Ha].
        specialize (F1 _ Hv). lia.
      * destruct (proj2 (E v) (or_intror Hv)) as [Ea|Ha]; [|exact Ha].
        specialize (F2 _ Hv). lia.
Qed.

(** [np.unique] depends on the values of the array only, not on their
    order or their number of occurrences. *)
Lemma np_unique_ext : forall y1 y2,
  (forall v, In v y1 <-> In v y2) -> np_unique y1 = np_unique y2.
Proof.
  intros y1 y2 E. apply sorted_lt_ext; try apply np_unique_sorted.
  intros v. now rewrite !np_unique_In.
Qed.

Lemma map_str_NoDup : forall l, NoDup l -> NoDup (map str l).
Proof.
  intros l N. induction N as [|x l Hx N IH]; simpl; constructor; auto.
  intros Hin. apply in_map_iff in Hin. destruct Hin as (x' & Es & Hx').
  apply str_inj in Es. subst. contradiction.
Qed.



(** X10. A class list derived by one [fit] stays: a later [fit] on other
    labels does not derive it again, and warns exactly when the new labels
    have another number of distinct values than the first ones. *)
Theorem fit_classes_persist_across_fits :
  forall (self : DataVisualizer) X1 (y1 : Target) kwargs1
         X2 (y2 : Target) kwargs2,
    classes_ self = None ->
    let o1 := DataVisualizer_fit X1 (Some y1) kwargs1 self in
    _target_color_type (instance o1) = Some DISCRETE ->
    let o2 := DataVisualizer_fit X2 (Some y2) kwargs2 (instance o1) in
    _target_color_type (instance o2) = Some DISCRETE ->
    classes_ (instance o2) = Some (map str (np_unique y1)) /\
    (warned o2 = [] <-> distinct_count y2 = distinct_count y1).
Proof.
  intros self X1 y1 kwargs1 X2 y2 kwargs2 Hc o1 R1 o2 R2.
  apply fit_resolves_discrete_inv in R1.
  destruct (fit_discrete_outcome self X1 y1 kwargs1 R1) as (_ & _ & Hcl1 & _).
  fold o1 in Hcl1. rewrite Hc in Hcl1.
  apply fit_resolves_discrete_inv in R2.
  destruct (fit_discrete_outcome (instance o1) X2 y2 kwargs2 R2)
    as (_ & Hw & Hcl2 & _).
  fold o2 in Hw, Hcl2. rewrite Hcl1 in Hw, Hcl2.
  split; [exact Hcl2|].
  rewrite Hw, length_map, !np_unique_length.
  destruct (Nat.eqb_spec (distinct_count y1) (distinct_count y2)) as [E|E].
  - split; [intros _; now symmetry|reflexivity].
  - split; [discriminate|]. intros E'. exfalso. apply E. now symmetry.
Qed.

(** X11. A derived class list has no repeated label and holds the text of
    each value of [y] and nothing else; when the colour resolution returns
    one colour per class, the colours have one key per distinct label. *)
Theorem fit_derived_classes_are_distinct :
  forall (self : DataVisualizer) X (y : Target) kwargs,
    classes_ self = None ->
    let o := DataVisualizer_fit X (Some y) kwargs self in
    _target_color_type (instance o) = Some DISCRETE ->
    exists classes,
      classes_ (instance o) = Some classes /\
      NoDup classes /\
      (forall v, In v y <-> In (str v) classes) /\
      (List.length (resolve_colors (List.length classes)
                                   (colormap self) (color self))
       = List.length classes ->
       exists d,
         _colors (instance o) = Some (ColorDict d) /\
         dict_keys d = classes /\
         dict_len d = distinct_count y).
Proof.
  intros self X y kwargs Hc o R.
  apply fit_resolves_discrete_inv in R.
  destruct (fit_discrete_outcome self X y kwargs R) as (_ & _ & Hcl & Hco & _).
  fold o in Hcl, Hco. rewrite Hc in Hcl, Hco.
  exists (map str (np_unique y)).
  assert (N : NoDup (map str (np_unique y)))
    by apply map_str_NoDup, np_unique_NoDup.
  split; [exact Hcl|]. split; [exact N|]. split.
  - intros v. rewrite <- np_unique_In. split; intros Hv.
    + now apply in_map.
    + apply in_map_iff in Hv. destruct Hv as (v' & Es & Hv').
      apply str_inj in Es. now subst.
  - intros Hlen.
    assert (Hk : map fst (zip (map str (np_unique y))
                   (resolve_colors (List.length (map str (np_unique y)))
                      (colormap self) (color self)))
                 = map str (np_unique y))
      by (apply zip_keys; lia).
    rewrite dict_of_pairs_NoDup in Hco by (now rewrite Hk).
    eexists. split; [exact Hco|]. split; [exact Hk|].
    unfold dict_len, zip. rewrite length_combine, Hlen, Nat.min_id.
    now rewrite length_map, np_unique_length.
Qed.

(** X12. The derived classes and the colours depend on the values that
    occur in [y] only: two label vectors with the same values, in any order
    and with any repetitions, give the same resolved type, the same class
    list and the same colours. *)
Theorem fit_derived_classes_ignore_order :
  forall (self : DataVisualizer) X (y1 y2 : Target) kwargs,
    (forall v, In v y1 <-> In v y2) ->
    let o1 := DataVisualizer_fit X (Some y1) kwargs self in
    let o2 := DataVisualizer_fit X (Some y2) kwargs self in
    _target_color_type (instance o1) = Some DISCRETE ->
    _target_color_type (instance o2) = Some DISCRETE /\
    classes_ (instance o2) = classes_ (instance o1) /\
    _colors (instance o2) = _colors (instance o1) /\
    warned o2 = warned o1.
Proof.
  intros self X y1 y2 kwargs E o1 o2 R1.
  pose proof (np_unique_ext y1 y2 E) as U.
  apply fit_resolves_discrete_inv in R1.
  assert (R2 : target_type self = DISCRETE \/
               (target_type self = AUTO /\
                (List.length (np_unique y2) <? 10)%nat = true))
    by (now rewrite <- U).
  destruct (fit_discrete_outcome self X y1 kwargs R1)
    as (_ & Hw1 & Hcl1 & Hco1 & _).
  destruct (fit_discrete_outcome self X y2 kwargs R2)
    as (_ & Hw2 & Hcl2 & Hco2 & Ht2).
  fold o1 in Hw1, Hcl1, Hco1. fold o2 in Hw2, Hcl2, Hco2, Ht2.
  rewrite <- U in Hw2, Hcl2, Hco2.
  repeat split; congruence.
Qed.


(** X14. With the requested type AUTO a derived class list has fewer than
    10 classes. *)
Theorem fit_auto_derives_fewer_than_ten_classes :
  forall (self : DataVisualizer) X (y : Target) kwargs,
    target_type self = AUTO ->
    classes_ self = None ->
    let o := DataVisualizer_fit X (Some y) kwargs self in
    _target_color_type (instance o) = Some DISCRETE ->
    exists classes,
      classes_ (instance o) = Some classes /\
      (List.length classes < 10)%nat /\
      List.length classes = distinct_count y.
Proof.
  intros self X y kwargs Ha Hc o R.
  apply fit_resolves_discrete_inv in R.
  destruct (fit_discrete_outcome self X y kwargs R) as (_ & _ & Hcl & _).
  fold o in Hcl. rewrite Hc in Hcl.
  eexists. split; [exact Hcl|]. rewrite length_map.
  split; [|apply np_unique_length].
  destruct R as [Rd|[_ Rl]]; [congruence|]. now apply Nat.ltb_lt.
Qed.

(* ================================================================== *)
(** ** The range *)
(* ================================================================== *)


Lemma array_range_ext : forall h1 t1 h2 t2,
  (forall v, In v (h1 :: t1) <-> In v (h2 :: t2)) ->
  fold_left Z.min t1 h1 = fold_left Z.min t2 h2 /\
  fold_left Z.max t1 h1 = fold_left Z.max t2 h2.
Proof.
  intros h1 t1 h2 t2 E.
  destruct (fold_min_spec t1 h1) as [Hmin1 Hle1].
  destruct (fold_min_spec t2 h2) as [Hmin2 Hle2].
  destruct (fold_max_spec t1 h1) as [Hmax1 Hge1].
  destruct (fold_max_spec t2 h2) as [Hmax2 Hge2].
  split.
  - apply Z.le_antisymm;
      [apply Hle1, E, Hmin2|apply Hle2, E, Hmin1].
  - apply Z.le_antisymm;
      [apply Hge2, E, Hmax1|apply Hge1, E, Hmax2].
Qed.

(** X16. The stored range depends on the values that occur in [y] only:
    label vectors with the same values, in any order and with any
    repetitions, give the same range. *)
Theorem fit_range_ignores_order :
  forall (self : DataVisualizer) X (y1 y2 : Target) kwargs,
    y1 <> [] ->
    (forall v, In v y1 <-> In v y2) ->
    let o1 := DataVisualizer_fit X (Some y1) kwargs self in
    let o2 := DataVisualizer_fit X (Some y2) kwargs self in
    _target_color_type (instance o1) = Some CONTINUOUS ->
    _target_color_type (instance o2) = Some CONTINUOUS /\
    result o2 = inr (instance o2) /\
    range_ (instance o2) = range_ (instance o1) /\
    range_ (instance o1) <> None.
Proof.
  intros self X y1 y2 kwargs Hne E o1 o2 R1.
  pose proof (np_unique_ext y1 y2 E) as U.
  destruct y1 as [|h1 t1]; [congruence|].
  destruct y2 as [|h2 t2]; [exfalso; apply (proj1 (E h1)); now left|].
  apply fit_resolves_continuous_inv in R1.
  assert (R2 : target_type self = CONTINUOUS \/
               (target_type self = AUTO /\
                (List.length (np_unique (h2 :: t2)) <? 10)%nat = false))
    by (now rewrite <- U).
  destruct (fit_continuous_outcome self X h1 t1 kwargs R1)
    as (_ & _ & Hr1 & _).
  destruct (fit_continuous_outcome self X h2 t2 kwargs R2)
    as (Hres & _ & Hr2 & _).
  subst o1 o2.
  destruct (array_range_ext h1 t1 h2 t2 E) as [Emin Emax].
  split.
  - rewrite fit_resolved_type.
    destruct R2 as [->|[-> ->]]; reflexivity.
  - unfold Target in *. split; [exact Hres|]. rewrite Hr1, Hr2, Emin, Emax.
    split; [reflexivity|discriminate].
Qed.

(* ================================================================== *)
(** ** Pipelines *)
(* ================================================================== *)

(** X17. [fit_transform_poof] returns the data it was given, unchanged,
    whenever [fit] returns: the warnings are those of [fit] and the
    instance is the fitted one with the axes as [poof] leaves them.  When
    [fit] raises, the exception is passed on and [poof] does not run. *)
Theorem fit_transform_poof_returns_input :
  forall (poof : DataVisualizer -> Kwargs -> Axes)
         (self : DataVisualizer) X (y : option Target) kwargs,
    let f := DataVisualizer_fit X y kwargs self in
    let o := fit_transform_poof poof X y kwargs self in
    (result f = inr (instance f) ->
       result o = inr X /\
       warned o = warned f /\
       instance o =
         set_super (instance f)
           (set_ax (super (instance f)) (poof (instance f) kwargs))) /\
    (forall e, result f = inl e ->
       result o = inl e /\ warned o = warned f /\ instance o = instance f).
Proof.
  intros poof self X y kwargs f o. subst f o.
  unfold fit_transform_poof, fit_transform, transform, bind, assign, ret.
  destruct (DataVisualizer_fit X y kwargs self) as [s w [e|v]]; simpl.
  - split; [discriminate|]. intros e' E. injection E as <-.
    repeat split; reflexivity.
  - split; [|discriminate]. intros _.
    rewrite !app_nil_r. repeat split; reflexivity.
Qed.

End Methods.

Arguments instance {H A} o.
Arguments warned {H A} o.
Arguments result {H A} o.

(* ================================================================== *)
(** ** The theorems at concrete inputs *)
(* ================================================================== *)

(** Three labels with two distinct values resolve AUTO to DISCRETE. *)
Lemma determine_auto_by_distinct_count_witness :
  target_type (text_visualizer AUTO None) = AUTO /\
  let o := _determine_target_color_type (Some [0; 1; 0])
             (text_visualizer AUTO None) in
  result o = inr tt /\
  ((distinct_count [0; 1; 0]%Z < 10)%nat ->
     _target_color_type (instance o) = Some DISCRETE) /\
  ((10 <= distinct_count [0; 1; 0]%Z)%nat ->
     _target_color_type (instance o) = Some CONTINUOUS).
Proof.
  split; [reflexivity|].
  apply (determine_auto_by_distinct_count (text_visualizer AUTO None)
           [0; 1; 0]).
  reflexivity.
Defined.

(** Ten distinct labels resolve AUTO to CONTINUOUS, nine to DISCRETE. *)
Example determine_auto_threshold_ex :
  _target_color_type
    (instance (_determine_target_color_type
                 (Some [0; 1; 2; 3; 4; 5; 6; 7; 8; 9])
                 (text_visualizer AUTO None))) = Some CONTINUOUS /\
  _target_color_type
    (instance (_determine_target_color_type
                 (Some [0; 1; 2; 3; 4; 5; 6; 7; 8; 8])
                 (text_visualizer AUTO None))) = Some DISCRETE.
Proof. split; reflexivity. Qed.

(** A requested CONTINUOUS stays CONTINUOUS on two labels. *)
Lemma determine_explicit_is_requested_witness :
  In (target_type (text_visualizer CONTINUOUS None))
     [SINGLE; DISCRETE; CONTINUOUS] /\
  let o := _determine_target_color_type (Some [0; 1])
             (text_visualizer CONTINUOUS None) in
  result o = inr tt /\
  _target_color_type (instance o) = Some CONTINUOUS /\
  (forall y' : Target,
     _determine_target_color_type (Some y')
       (text_visualizer CONTINUOUS None) = o).
Proof.
  assert (I : In (target_type (text_visualizer CONTINUOUS None))
                 [SINGLE; DISCRETE; CONTINUOUS])
    by (simpl; tauto).
  split; [exact I|].
  exact (determine_explicit_is_requested (text_visualizer CONTINUOUS None)
           [0; 1] I).
Defined.

(** The constructor accepts "discrete" and rejects "bogus". *)
Lemma init_validates_target_type_witness :
  (In "discrete" ["auto"; "single"; "discrete"; "continuous"] /\
   exists self,
     @DataVisualizer_init text_backend [] None None None None "discrete"
     = inr self /\
     TargetType_value (target_type self) = "discrete") /\
  (~ In "bogus" ["auto"; "single"; "discrete"; "continuous"] /\
   @DataVisualizer_init text_backend [] None None None None "bogus"
   = inl (YellowbrickValueError "unknown target color type 'bogus'")).
Proof.
  assert (I : In "discrete" ["auto"; "single"; "discrete"; "continuous"])
    by (simpl; tauto).
  assert (N : ~ In "bogus" ["auto"; "single"; "discrete"; "continuous"])
    by (simpl; intros [E|[E|[E|[E|[]]]]]; discriminate E).
  split; (split; [assumption|]).
  - exact (proj1 (@init_validates_target_type text_backend
                    [] None None None None "discrete") I).
  - exact (proj2 (@init_validates_target_type text_backend
                    [] None None None None "bogus") N).
Defined.

(** Column names of a data frame, positions of a four-column array, and
    no second resolution. *)
Lemma fit_resolves_features_once_witness :
  let self := super (text_visualizer AUTO None) in
  let age_income := [FeatureName "age"; FeatureName "income"] in
  features_ self = None /\
  features_ (MultiFeatureVisualizer_fit self (DataFrame age_income 3))
  = Some age_income /\
  (exists positions,
     features_ (MultiFeatureVisualizer_fit self (NdArray 5 4))
     = Some positions /\
     List.length positions = 4%nat /\
     forall i, (i < 4)%nat ->
       nth_error positions i = Some (FeatureIndex (Z.of_nat i))) /\
  MultiFeatureVisualizer_fit
    (MultiFeatureVisualizer_fit self (DataFrame age_income 3)) (NdArray 5 4)
  = MultiFeatureVisualizer_fit self (DataFrame age_income 3).
Proof.
  intros self age_income.
  split; [reflexivity|]. split; [|split].
  - destruct (fit_resolves_features_once self (DataFrame age_income 3))
      as (_ & Hdf & _ & _).
    exact (Hdf age_income 3%nat eq_refl eq_refl).
  - destruct (fit_resolves_features_once self (NdArray 5 4))
      as (_ & _ & Harr & _).
    exact (Harr 5%nat 4%nat eq_refl eq_refl).
  - destruct (fit_resolves_features_once self (DataFrame age_income 3))
      as (_ & _ & _ & Honce).
    exact (Honce (NdArray 5 4)).
Defined.

Example fit_features_ex :
  features_ (MultiFeatureVisualizer_fit (super (text_visualizer AUTO None))
               (NdArray 5 4))
  = Some [FeatureIndex 0; FeatureIndex 1; FeatureIndex 2; FeatureIndex 3].
Proof. reflexivity. Qed.

(** Two classes for three distinct labels: a warning, and the two classes
    are kept. *)
Lemma fit_class_count_mismatch_warns_witness :
  let self := text_visualizer AUTO (Some ["x"; "y"]) in
  let o := @DataVisualizer_fit text_backend text_collaborators
             (NdArray 3 2) (Some [0; 1; 2]) tt self in
  (classes_ self = Some ["x"; "y"] /\
   List.length ["x"; "y"] <> distinct_count [0; 1; 2] /\
   _target_color_type (instance o) = Some DISCRETE) /\
  warned o = [Warn "Number of unique target is not equal to classes"
                   YellowbrickWarning] /\
  result o = inr (instance o) /\
  classes_ (instance o) = Some ["x"; "y"] /\
  _colors (instance o) =
    Some (ColorDict ([("x", "#0272a2"); ("y", "#9fc377")]
                     : PyDict (@Color text_backend))).
Proof.
  intros self o.
  assert (Hn : List.length ["x"; "y"] <> distinct_count [0; 1; 2])
    by (vm_compute; discriminate).
  assert (Hd : _target_color_type (instance o) = Some DISCRETE)
    by reflexivity.
  split; [split; [reflexivity|split; assumption]|].
  exact (@fit_class_count_mismatch_warns text_backend text_collaborators
           self (NdArray 3 2) [0; 1; 2] tt ["x"; "y"] eq_refl Hn Hd).
Defined.

(** Labels without a class list: no warning, three derived classes. *)
Lemma fit_derived_classes_never_warn_witness :
  let self := text_visualizer AUTO None in
  let o := @DataVisualizer_fit text_backend text_collaborators
             (NdArray 4 2) (Some [2; 0; 1; 0]) tt self in
  (classes_ self = None /\
   _target_color_type (instance o) = Some DISCRETE) /\
  warned o = [] /\
  result o = inr (instance o) /\
  exists classes,
    classes_ (instance o) = Some classes /\
    List.length classes = distinct_count [2; 0; 1; 0].
Proof.
  intros self o.
  assert (Hd : _target_color_type (instance o) = Some DISCRETE)
    by reflexivity.
  split; [split; [reflexivity|assumption]|].
  exact (@fit_derived_classes_never_warn text_backend text_collaborators
           self (NdArray 4 2) [2; 0; 1; 0] tt eq_refl Hd).
Defined.

(** Labels met in the order 3, 1, 2 give the classes 1, 2, 3. *)
Lemma fit_derives_sorted_classes_witness :
  let self := text_visualizer AUTO None in
  let o := @DataVisualizer_fit text_backend text_collaborators
             (NdArray 3 2) (Some [3; 1; 2]) tt self in
  (classes_ self = None /\
   _target_color_type (instance o) = Some DISCRETE) /\
  exists values,
    classes_ (instance o) = Some (map str values) /\
    StronglySorted Z.lt values /\
    (forall v, In v values <-> In v [3; 1; 2]).
Proof.
  intros self o.
  assert (Hd : _target_color_type (instance o) = Some DISCRETE)
    by reflexivity.
  split; [split; [reflexivity|assumption]|].
  exact (@fit_derives_sorted_classes text_backend text_collaborators
           self (NdArray 3 2) [3; 1; 2] tt eq_refl Hd).
Defined.

Example fit_derives_sorted_classes_ex :
  classes_ (instance (@DataVisualizer_fit text_backend text_collaborators
                        (NdArray 3 2) (Some [3; 1; 2]) tt
                        (text_visualizer AUTO None)))
  = Some ["1"; "2"; "3"].
Proof. reflexivity. Qed.

(** C6 as stated fails: the labels 3, 1, 2 are met in that order, and the
    derived class list is 1, 2, 3. *)
Lemma fit_derived_classes_not_by_encounter :
  ~ (forall (B : Backend) (C : @Collaborators B) (self : @DataVisualizer B)
            (X : Data) (y : Target) (kwargs : @Kwargs B),
       classes_ self = None ->
       let o := @DataVisualizer_fit B C X (Some y) kwargs self in
       _target_color_type (instance o) = Some DISCRETE ->
       classes_ (instance o) = Some (map str (distinct_by_encounter y))).
Proof.
  intros Hc.
  specialize (Hc text_backend text_collaborators (text_visualizer AUTO None)
                (NdArray 3 2) [3; 1; 2] tt eq_refl eq_refl).
  vm_compute in Hc. discriminate Hc.
Qed.

(** Three classes and three colours: the dictionary pairs them in order. *)
Lemma fit_discrete_colors_by_position_witness :
  let self := text_visualizer DISCRETE (Some ["a"; "b"; "c"]) in
  let o := @DataVisualizer_fit text_backend text_collaborators
             (NdArray 3 2) (Some [0; 1; 2]) tt self in
  let color_values : list (@Color text_backend) :=
    ["#0272a2"; "#9fc377"; "#ca0b03"] in
  (_target_color_type (instance o) = Some DISCRETE /\
   classes_ (instance o) = Some ["a"; "b"; "c"] /\
   List.length color_values = List.length ["a"; "b"; "c"] /\
   NoDup ["a"; "b"; "c"]) /\
  exists d,
    _colors (instance o) = Some (ColorDict d) /\
    d = zip ["a"; "b"; "c"] color_values /\
    dict_keys d = ["a"; "b"; "c"] /\
    dict_len d = List.length ["a"; "b"; "c"] /\
    (forall i k, nth_error ["a"; "b"; "c"] i = Some k ->
                 dict_get d k = nth_error color_values i).
Proof.
  intros self o color_values.
  assert (Hd : _target_color_type (instance o) = Some DISCRETE)
    by reflexivity.
  assert (Hc : classes_ (instance o) = Some ["a"; "b"; "c"])
    by reflexivity.
  assert (Hl : List.length color_values = List.length ["a"; "b"; "c"])
    by reflexivity.
  assert (Hn : NoDup ["a"; "b"; "c"]).
  { repeat constructor; simpl; intuition discriminate. }
  split; [repeat split; assumption|].
  exact (@fit_discrete_colors_by_position text_backend text_collaborators
           self (NdArray 3 2) [0; 1; 2] tt ["a"; "b"; "c"] color_values
           Hd Hc eq_refl Hl Hn).
Defined.

(** C5 as stated fails: with the class list a, a and two colours the
    dictionary has one key, bound to the second colour. *)
Lemma fit_discrete_colors_repeated_class :
  ~ (forall (B : Backend) (C : @Collaborators B) (self : @DataVisualizer B)
            (X : Data) (y : Target) (kwargs : @Kwargs B)
            (classes : list string) (color_values : list (@Color B)),
       let o := @DataVisualizer_fit B C X (Some y) kwargs self in
       _target_color_type (instance o) = Some DISCRETE ->
       classes_ (instance o) = Some classes ->
       color_values =
         resolve_colors (List.length classes) (colormap self) (color self) ->
       List.length color_values = List.length classes ->
       exists d,
         _colors (instance o) = Some (ColorDict d) /\
         (forall k, In k (dict_keys d) <-> In k classes) /\
         dict_len d = List.length classes /\
         (forall i k, nth_error classes i = Some k ->
                      dict_get d k = nth_error color_values i)).
Proof.
  intros Hc.
  specialize (Hc text_backend text_collaborators
                (text_visualizer DISCRETE (Some ["a"; "a"]))
                (NdArray 2 2) [0; 1] tt ["a"; "a"] _
                eq_refl eq_refl eq_refl eq_refl).
  destruct Hc as (d & Hd & _ & Hlen & _).
  vm_compute in Hd. injection Hd as <-. discriminate Hlen.
Qed.

Example fit_repeated_class_ex :
  _colors (instance (@DataVisualizer_fit text_backend text_collaborators
                       (NdArray 2 2) (Some [0; 1]) tt
                       (text_visualizer DISCRETE (Some ["a"; "a"]))))
  = Some (ColorDict ([("a", "#9fc377")] : PyDict (@Color text_backend))).
Proof. reflexivity. Qed.

(** The range of 1, 5, 3, 9, 2 is (1, 9). *)
Lemma fit_continuous_range_witness :
  let self := text_visualizer CONTINUOUS None in
  let y : Target := [1; 5; 3; 9; 2] in
  let o := @DataVisualizer_fit text_backend text_collaborators
             (NdArray 5 2) (Some y) tt self in
  (y <> [] /\ _target_color_type (instance o) = Some CONTINUOUS) /\
  range_ (instance o) = Some (1, 9) /\
  result o = inr (instance o) /\
  exists lo hi,
    range_ (instance o) = Some (lo, hi) /\
    In lo (np_asarray y) /\ In hi (np_asarray y) /\
    (forall v, In v (np_asarray y) -> lo <= v <= hi).
Proof.
  intros self y o.
  assert (Hne : y <> []) by discriminate.
  assert (Hd : _target_color_type (instance o) = Some CONTINUOUS)
    by reflexivity.
  split; [split; assumption|].
  split; [reflexivity|].
  exact (@fit_continuous_range text_backend text_collaborators
           self (NdArray 5 2) y tt Hne Hd).
Defined.

(** C8 as stated fails: with an empty label vector and the requested type
    CONTINUOUS, [fit] stops with the [ValueError] of [y.min()] and stores
    no range. *)
Lemma fit_continuous_empty_no_range :
  ~ (forall (B : Backend) (C : @Collaborators B) (self : @DataVisualizer B)
            (X : Data) (y : Target) (kwargs : @Kwargs B),
       let o := @DataVisualizer_fit B C X (Some y) kwargs self in
       _target_color_type (instance o) = Some CONTINUOUS ->
       exists lo hi,
         range_ (instance o) = Some (lo, hi) /\
         In lo (np_asarray y) /\ In hi (np_asarray y) /\
         (forall v, In v (np_asarray y) -> lo <= v <= hi)).
Proof.
  intros Hc.
  specialize (Hc text_backend text_collaborators
                (text_visualizer CONTINUOUS None) (NdArray 0 2) [] tt eq_refl).
  destruct Hc as (lo & hi & Hr & _). vm_compute in Hr. discriminate Hr.
Qed.

Example fit_continuous_empty_ex :
  let o := @DataVisualizer_fit text_backend text_collaborators
             (NdArray 0 2) (Some []) tt (text_visualizer CONTINUOUS None) in
  result o = inl (ValueError
    "zero-size array to reduction operation minimum which has no identity")
  /\ range_ (instance o) = None.
Proof. split; reflexivity. Qed.

(* ================================================================== *)
(** ** The further properties at concrete inputs *)
(* ================================================================== *)

(** Two AUTO instances, one of them with a class list, resolve alike. *)
Lemma fit_resolved_type_not_cached_witness :
  let self := text_visualizer AUTO None in
  let self' := text_visualizer AUTO (Some ["x"]) in
  target_type self = target_type self' /\
  _target_color_type
    (instance (@DataVisualizer_fit text_backend text_collaborators
                 (NdArray 2 2) (Some [0; 1]) tt self))
  = _target_color_type
      (instance (@DataVisualizer_fit text_backend text_collaborators
                   (NdArray 2 3) (Some [0; 1]) tt self')) /\
  exists t,
    _target_color_type
      (instance (@DataVisualizer_fit text_backend text_collaborators
                   (NdArray 2 2) (Some [0; 1]) tt self)) = Some t /\
    t <> AUTO.
Proof.
  intros self self'. split; [reflexivity|].
  exact (@fit_resolved_type_not_cached text_backend text_collaborators
           self self' (NdArray 2 2) (NdArray 2 3) (Some [0; 1]) tt tt
           eq_refl).
Defined.

(** A fit on two labels returns and stores a dictionary. *)
Lemma fit_colors_match_resolved_type_witness :
  let o := @DataVisualizer_fit text_backend text_collaborators
             (NdArray 2 2) (Some [0; 1]) tt (text_visualizer AUTO None) in
  result o = inr (instance o) /\
  exists d, _colors (instance o) = Some (ColorDict d).
Proof.
  intros o. split; [reflexivity|].
  exact (@fit_colors_match_resolved_type text_backend text_collaborators
           (text_visualizer AUTO None) (NdArray 2 2) (Some [0; 1]) tt
           eq_refl).
Defined.

(** Classes derived from the labels 0, 1 stay when the labels 0, 1, 2
    follow, and the second [fit] warns. *)
Lemma fit_classes_persist_across_fits_witness :
  let self := text_visualizer AUTO None in
  let o1 := @DataVisualizer_fit text_backend text_collaborators
              (NdArray 2 2) (Some [0; 1]) tt self in
  let o2 := @DataVisualizer_fit text_backend text_collaborators
              (NdArray 3 2) (Some [0; 1; 2]) tt (instance o1) in
  (classes_ self = None /\
   _target_color_type (instance o1) = Some DISCRETE /\
   _target_color_type (instance o2) = Some DISCRETE) /\
  classes_ (instance o2) = Some ["0"; "1"] /\
  (warned o2 = [] <-> distinct_count [0; 1; 2] = distinct_count [0; 1]) /\
  warned o2 <> [].
Proof.
  intros self o1 o2.
  split; [repeat split; reflexivity|].
  destruct (@fit_classes_persist_across_fits text_backend text_collaborators
              self (NdArray 2 2) [0; 1] tt (NdArray 3 2) [0; 1; 2] tt
              eq_refl eq_refl eq_refl) as [Hc Hw].
  split; [exact Hc|]. split; [exact Hw|].
  intros E. apply Hw in E. vm_compute in E. discriminate E.
Defined.

(** Four labels with three values: three distinct classes, three keys. *)
Lemma fit_derived_classes_are_distinct_witness :
  let self := text_visualizer AUTO None in
  let o := @DataVisualizer_fit text_backend text_collaborators
             (NdArray 4 2) (Some [2; 0; 1; 0]) tt self in
  (classes_ self = None /\
   _target_color_type (instance o) = Some DISCRETE) /\
  exists classes,
    classes_ (instance o) = Some classes /\
    NoDup classes /\
    (forall v, In v [2; 0; 1; 0] <-> In (str v) classes) /\
    exists d,
      _colors (instance o) = Some (ColorDict d) /\
      dict_keys d = classes /\
      dict_len d = distinct_count [2; 0; 1; 0].
Proof.
  intros self o.
  split; [split; reflexivity|].
  destruct (@fit_derived_classes_are_distinct text_backend text_collaborators
              self (NdArray 4 2) [2; 0; 1; 0] tt eq_refl eq_refl)
    as (classes & Hc & Hn & Hv & Hd).
  exists classes. split; [exact Hc|]. split; [exact Hn|]. split; [exact Hv|].
  apply Hd.
  assert (E : Some classes = Some ["0"; "1"; "2"])
    by (rewrite <- Hc; reflexivity).
  injection E as ->. reflexivity.
Defined.

(** The labels 1, 0, 1 and the labels 0, 1 give the same classes. *)
Lemma fit_derived_classes_ignore_order_witness :
  let self := text_visualizer DISCRETE None in
  let o1 := @DataVisualizer_fit text_backend text_collaborators
              (NdArray 3 2) (Some [1; 0; 1]) tt self in
  let o2 := @DataVisualizer_fit text_backend text_collaborators
              (NdArray 3 2) (Some [0; 1]) tt self in
  ((forall v, In v [1; 0; 1] <-> In v [0; 1]) /\
   _target_color_type (instance o1) = Some DISCRETE) /\
  _target_color_type (instance o2) = Some DISCRETE /\
  classes_ (instance o2) = classes_ (instance o1) /\
  _colors (instance o2) = _colors (instance o1) /\
  warned o2 = warned o1.
Proof.
  intros self o1 o2.
  assert (E : forall v, In v [1; 0; 1] <-> In v [0; 1])
    by (intros v; simpl; tauto).
  split; [split; [exact E|reflexivity]|].
  exact (@fit_derived_classes_ignore_order text_backend text_collaborators
           self (NdArray 3 2) [1; 0; 1] [0; 1] tt E eq_refl).
Defined.


(** Nine distinct labels under AUTO: nine classes. *)
Lemma fit_auto_derives_fewer_than_ten_classes_witness :
  let self := text_visualizer AUTO None in
  let o := @DataVisualizer_fit text_backend text_collaborators
             (NdArray 9 2) (Some [0; 1; 2; 3; 4; 5; 6; 7; 8]) tt self in
  (target_type self = AUTO /\ classes_ self = None /\
   _target_color_type (instance o) = Some DISCRETE) /\
  exists classes,
    classes_ (instance o) = Some classes /\
    (List.length classes < 10)%nat /\
    List.length classes = distinct_count [0; 1; 2; 3; 4; 5; 6; 7; 8].
Proof.
  intros self o.
  split; [repeat split; reflexivity|].
  exact (@fit_auto_derives_fewer_than_ten_classes
           text_backend text_collaborators
           self (NdArray 9 2) [0; 1; 2; 3; 4; 5; 6; 7; 8] tt
           eq_refl eq_refl eq_refl).
Defined.


(** The labels 1, 5, 3, 9, 2 and the labels 9, 1, 2, 3, 5, 5 have the same
    range. *)
Lemma fit_range_ignores_order_witness :
  let self := text_visualizer CONTINUOUS None in
  let y1 : Target := [1; 5; 3; 9; 2] in
  let y2 : Target := [9; 1; 2; 3; 5; 5] in
  let o1 := @DataVisualizer_fit text_backend text_collaborators
              (NdArray 5 2) (Some y1) tt self in
  let o2 := @DataVisualizer_fit text_backend text_collaborators
              (NdArray 5 2) (Some y2) tt self in
  (y1 <> [] /\ (forall v, In v y1 <-> In v y2) /\
   _target_color_type (instance o1) = Some CONTINUOUS) /\
  _target_color_type (instance o2) = Some CONTINUOUS /\
  result o2 = inr (instance o2) /\
  range_ (instance o2) = range_ (instance o1) /\
  range_ (instance o1) <> None.
Proof.
  intros self y1 y2 o1 o2.
  assert (Hne : y1 <> []) by discriminate.
  assert (E : forall v, In v y1 <-> In v y2)
    by (intros v; simpl; tauto).
  split; [split; [exact Hne|split; [exact E|reflexivity]]|].
  exact (@fit_range_ignores_order text_backend text_collaborators
           self (NdArray 5 2) y1 y2 tt Hne E eq_refl).
Defined.

